(** * A shallow embedding of [mii/client.py] (DeepSpeed-MII client layer)

    The model follows the Python source: the process-wide dictionary
    [mii.non_persistent_models] is a [gmap string (pyval * Tasks)] held in
    the state, every transport call and every invocation of an inference
    pipeline is recorded as an [event] in a trace, and Python exceptions
    are the errors of a small state/error monad.  A coroutine that awaits
    a response which never arrives is [Blocked]. *)

From Stdlib Require Import List ZArith.
From stdpp Require Import base gmap strings list fin_maps.
Import ListNotations.

(** ** Python values *)

(** Opaque Python objects (pipelines, conversation objects, protobuf
    messages) are [PObj]; the rest are the literals the code handles. *)
#[local] Set Warnings "-register-all".
Inductive pyval : Type :=
| PNone
| PStr (s : string)
| PInt (z : Z)
| PList (l : list pyval)
| PObj (tag : string).

(** [request_dict] and [**query_kwargs]: Python dicts keyed by strings. *)
Abbreviation request_dict := (gmap string pyval).
Abbreviation kwargs := (gmap string pyval).

(** A protobuf message as it travels over the channel. *)
Abbreviation proto := pyval.

(** ** Task kinds ([mii.constants.Tasks]) *)

(** Task names are represented by their [Tasks] value, so the
    [get_task] call of the constructors is the identity here. *)
Inductive Tasks : Type :=
| TEXT_GENERATION
| TEXT_CLASSIFICATION
| QUESTION_ANSWERING
| FILL_MASK
| TOKEN_CLASSIFICATION
| CONVERSATIONAL
| TEXT2IMG.

#[global] Instance Tasks_eq_dec : EqDecision Tasks.
Proof. solve_decision. Defined.

(** One entry of [GRPC_METHOD_TABLE] ([mii.method_table]): the packing
    and unpacking functions, the name of the stub method, and the
    in-process entry points.  The table itself is a parameter of every
    operation below, so each result holds for every table. *)
Record task_methods : Type := {
  pack_request_to_proto : request_dict -> kwargs -> proto;
  method : string;
  unpack_response_from_proto : proto -> pyval;
  create_conversation : request_dict -> kwargs -> pyval;
  run_inference : pyval -> list pyval -> kwargs -> pyval
}.

Abbreviation method_table := (Tasks -> option task_methods).

(** ** Transport *)

(** A channel endpoint [(host, port)] as built by [create_channel]. *)
Abbreviation endpoint := (string * N)%type.

(** The calls a [ModelResponseStub] can issue. *)
Inductive rpc : Type :=
| RpcMethod (meth : string) (req : proto)
| RpcTerminate
| RpcCreateSession (session_id : string)
| RpcDestroySession (session_id : string).

(** What the remote side does with one call: it answers, it fails with a
    transport error, or it never answers. *)
Inductive rpc_outcome : Type :=
| Done (resp : proto)
| Failed (code : nat)
| Pending.

(** The network: the outcome of each call at each endpoint. *)
Abbreviation network := (endpoint -> rpc -> rpc_outcome).

(** ** Observable effects and errors *)

Inductive event : Type :=
| EvRpc (ep : endpoint) (call : rpc)
| EvInference (pipeline : pyval) (args : list pyval) (kw : kwargs)
| EvPrint (msg : string).

(** Python exceptions raised on the paths of [client.py]. *)
Inductive error : Type :=
| UnknownTask                (* ValueError(f"unknown task: ...") *)
| AssertFailed (msg : string) (* AssertionError *)
| KeyErr (key : string)       (* KeyError on a dict lookup or del *)
| KeyErrTask (t : Tasks)      (* KeyError on GRPC_METHOD_TABLE[task] *)
| QAKeysMissing              (* Exception("Question Answering Task requires ...") *)
| IndexErr                   (* IndexError on responses[0] *)
| ImportErr (name : string)  (* the score file of a deployment cannot be read *)
| TransportErr (code : nat).  (* a failed RPC *)

Inductive res (A : Type) : Type :=
| Ok (a : A)
| Err (e : error)
| Blocked.
Arguments Ok {A} a.
Arguments Err {A} e.
Arguments Blocked {A}.

Record state : Type := mkState {
  non_persistent_models : gmap string (pyval * Tasks);
  trace : list event
}.

Definition M (A : Type) : Type := state -> res A * state.

Definition ret {A} (a : A) : M A := fun st => (Ok a, st).
Definition raise {A} (e : error) : M A := fun st => (Err e, st).
Definition block {A} : M A := fun st => (Blocked, st).

Definition bind {A B} (m : M A) (k : A -> M B) : M B :=
  fun st =>
    match m st with
    | (Ok a, st') => k a st'
    | (Err e, st') => (Err e, st')
    | (Blocked, st') => (Blocked, st')
    end.

Notation "x <- m ;; k" := (bind m (fun x => k))
  (at level 64, m at next level, right associativity).
Notation "m ;;; k" := (bind m (fun _ => k))
  (at level 64, right associativity).

Definition add_trace (evs : list event) (st : state) : state :=
  mkState (non_persistent_models st) (trace st ++ evs).

Definition emit (ev : event) : M unit := fun st => (Ok tt, add_trace [ev] st).

Definition get_models : M (gmap string (pyval * Tasks)) :=
  fun st => (Ok (non_persistent_models st), st).

Definition set_models (m : gmap string (pyval * Tasks)) : M unit :=
  fun st => (Ok tt, mkState m (trace st)).

(** [assert cond, msg] *)
Definition assert_ (b : bool) (msg : string) : M unit :=
  if b then ret tt else raise (AssertFailed msg).

(** [asyncio_loop.create_task(coro)]: the coroutine runs up to its end (or
    forever) without its outcome being observed by the spawner. *)
Definition create_task {A} (m : M A) : M (res A) :=
  fun st => let '(r, st') := m st in (Ok r, st').

(** [await task] / [task.result()]: re-raise the outcome of a task. *)
Definition await_task {A} (r : res A) : M A :=
  fun st => (r, st).

(** One awaited stub call: the call is issued, then its answer awaited. *)
Definition stub_call (net : network) (ep : endpoint) (call : rpc) : M proto :=
  emit (EvRpc ep call) ;;;
  match net ep call with
  | Done p => ret p
  | Failed c => raise (TransportErr c)
  | Pending => block
  end.

(** [for client in clients: f(client)] *)
Fixpoint for_each {A B} (f : A -> M B) (xs : list A) : M unit :=
  match xs with
  | [] => ret tt
  | x :: xs' => f x ;;; for_each f xs'
  end.

(** [d[k]] on a Python dict. *)
Definition dict_get (d : gmap string pyval) (k : string) : M pyval :=
  match d !! k with
  | Some v => ret v
  | None => raise (KeyErr k)
  end.

(** The fields of [mii.config.MIIConfig] that [client.py] reads, and the
    [tensor_parallel] degree the deployment was created with. *)
Record MIIConfig : Type := mkMIIConfig {
  tensor_parallel : nat;
  port_number : N;
  enable_restful_api : bool;
  restful_api_port : N
}.

(** The [configs] of a deployment's score file: the task name and the
    MII configuration. *)
Record score_configs : Type := mkScoreConfigs {
  sc_task : option Tasks;
  sc_mii_configs : MIIConfig
}.

(** [mii.utils.import_score_file(name).configs]; [None] when the score
    file cannot be imported. *)
Abbreviation score_files := (string -> option score_configs).

Section Client.

(** [mii.method_table.GRPC_METHOD_TABLE]: [None] for a task that is not a
    key of the table. *)
Variable GRPC_METHOD_TABLE : method_table.

(** ** [MIIClient]: one endpoint *)

Record MIIClient : Type := mkMIIClient {
  mc_task : Tasks;
  mc_host : string;
  mc_port : N
}.

(** [MIIClient(task_name, host, port)]: opening the channel issues no call. *)
Definition new_MIIClient (task_name : Tasks) (host : string) (port : N) : MIIClient :=
  mkMIIClient task_name host port.

Definition client_ep (c : MIIClient) : endpoint := (mc_host c, mc_port c).

(** [MIIClient._request_async_response] *)
Definition request_async_response (net : network) (c : MIIClient)
    (request_dict : request_dict) (query_kwargs : kwargs) : M pyval :=
  match GRPC_METHOD_TABLE (mc_task c) with
  | None => raise UnknownTask
  | Some task_methods =>
      let proto_request := pack_request_to_proto task_methods request_dict query_kwargs in
      proto_response <- stub_call net (client_ep c) (RpcMethod (method task_methods) proto_request) ;;
      ret (unpack_response_from_proto task_methods proto_response)
  end.

(** [MIIClient.query]: [run_until_complete] of the coroutine above. *)
Definition MIIClient_query (net : network) (c : MIIClient)
    (request_dict : request_dict) (query_kwargs : kwargs) : M pyval :=
  request_async_response net c request_dict query_kwargs.

(** [MIIClient.terminate] *)
Definition MIIClient_terminate (net : network) (c : MIIClient) : M unit :=
  _ <- stub_call net (client_ep c) RpcTerminate ;; ret tt.

(** [MIIClient.create_session] *)
Definition MIIClient_create_session (net : network) (c : MIIClient) (session_id : string) : M proto :=
  assert_ (bool_decide (mc_task c = TEXT_GENERATION))
    "Session creation only available for task 'text-generation'." ;;;
  stub_call net (client_ep c) (RpcCreateSession session_id).

(** [MIIClient.destroy_session] *)
Definition MIIClient_destroy_session (net : network) (c : MIIClient) (session_id : string) : M unit :=
  assert_ (bool_decide (mc_task c = TEXT_GENERATION))
    "Session deletion only available for task 'text-generation'." ;;;
  _ <- stub_call net (client_ep c) (RpcDestroySession session_id) ;; ret tt.

(** ** [MIITensorParallelClient]: one [MIIClient] per port *)

Record MIITensorParallelClient : Type := mkTPClient {
  tp_task : Tasks;
  tp_clients : list MIIClient
}.

(** [MIITensorParallelClient(task_name, host, ports)] *)
Definition new_MIITensorParallelClient (task_name : Tasks) (host : string) (ports : list N)
    : MIITensorParallelClient :=
  mkTPClient task_name (map (fun port => new_MIIClient task_name host port) ports).

(** The loop of [_query_in_tensor_parallel] that spawns one task per
    client.  The event loop starts the tasks in creation order; each
    coroutine issues its single call before the first one can be
    resumed, so the calls appear in the trace in shard order.  A task's
    outcome is kept in [responses], not raised. *)
Fixpoint spawn_requests (net : network) (clients : list MIIClient)
    (request_string : request_dict) (query_kwargs : kwargs) : M (list (res pyval)) :=
  match clients with
  | [] => ret []
  | client :: rest =>
      t <- create_task (request_async_response net client request_string query_kwargs) ;;
      ts <- spawn_requests net rest request_string query_kwargs ;;
      ret (t :: ts)
  end.

(** [MIITensorParallelClient._query_in_tensor_parallel]: await
    [responses[0]] and return that task. *)
Definition query_in_tensor_parallel (net : network) (tp : MIITensorParallelClient)
    (request_string : request_dict) (query_kwargs : kwargs) : M (res pyval) :=
  responses <- spawn_requests net (tp_clients tp) request_string query_kwargs ;;
  match responses with
  | [] => raise IndexErr
  | r0 :: _ => await_task r0 ;;; ret r0
  end.

(** [MIITensorParallelClient.query]: [response.result()] *)
Definition MIITensorParallelClient_query (net : network) (tp : MIITensorParallelClient)
    (request_dict : request_dict) (query_kwargs : kwargs) : M pyval :=
  response <- query_in_tensor_parallel net tp request_dict query_kwargs ;;
  await_task response.

(** [MIITensorParallelClient.terminate] *)
Definition MIITensorParallelClient_terminate (net : network) (tp : MIITensorParallelClient) : M unit :=
  for_each (MIIClient_terminate net) (tp_clients tp).

(** [MIITensorParallelClient.create_session] *)
Definition MIITensorParallelClient_create_session (net : network) (tp : MIITensorParallelClient)
    (session_id : string) : M unit :=
  for_each (fun client => MIIClient_create_session net client session_id) (tp_clients tp).

(** [MIITensorParallelClient.destroy_session] *)
Definition MIITensorParallelClient_destroy_session (net : network) (tp : MIITensorParallelClient)
    (session_id : string) : M unit :=
  for_each (fun client => MIIClient_destroy_session net client session_id) (tp_clients tp).

(** ** [MIINonPersistentClient]: the in-process pipeline *)

Record MIINonPersistentClient : Type := mkNPClient {
  np_task : Tasks;
  np_deployment_name : string
}.

(** [MIINonPersistentClient.query].  The [kwargs] built by the three
    branches is returned by [build_args] alongside [args]; the final call
    is written as in the source. *)
Definition MIINonPersistentClient_query (c : MIINonPersistentClient)
    (request_dict : request_dict) (query_kwargs : kwargs) : M pyval :=
  models <- get_models ;;
  assert_ (bool_decide (is_Some (models !! np_deployment_name c)))
    ("deployment: " +:+ np_deployment_name c +:+ " not found") ;;;
  match GRPC_METHOD_TABLE (np_task c) with
  | None => raise (KeyErrTask (np_task c))
  | Some task_methods =>
      match models !! np_deployment_name c with
      | None => raise (KeyErr (np_deployment_name c))
      | Some (inference_pipeline, _) =>
          build_args <-
            (if bool_decide (np_task c = QUESTION_ANSWERING) then
               if bool_decide (request_dict !! "question" = None)
                  || bool_decide (request_dict !! "context" = None)
               then raise QAKeysMissing
               else
                 q <- dict_get request_dict "question" ;;
                 ctx <- dict_get request_dict "context" ;;
                 ret ([q; ctx], query_kwargs)
             else if bool_decide (np_task c = CONVERSATIONAL) then
               let conv := create_conversation task_methods request_dict query_kwargs in
               ret ([conv], ∅)
             else
               q <- dict_get request_dict "query" ;;
               ret ([q], query_kwargs)) ;;
          let '(args, _kwargs) := build_args in
          emit (EvInference inference_pipeline args query_kwargs) ;;;
          ret (run_inference task_methods inference_pipeline args query_kwargs)
      end
  end.

(** [MIINonPersistentClient.terminate]: [print] then
    [del mii.non_persistent_models[deployment_name]]. *)
Definition MIINonPersistentClient_terminate (c : MIINonPersistentClient) : M unit :=
  emit (EvPrint ("Terminating " +:+ np_deployment_name c +:+ "...")) ;;;
  models <- get_models ;;
  match models !! np_deployment_name c with
  | Some _ => set_models (delete (np_deployment_name c) models)
  | None => raise (KeyErr (np_deployment_name c))
  end.

(** ** Deployment resolution *)

(** [_get_deployment_info] *)
Definition get_deployment_info (files : score_files) (deployment_name : string)
    : M (Tasks * MIIConfig) :=
  match files deployment_name with
  | None => raise (ImportErr deployment_name)
  | Some configs =>
      let mii_configs := sc_mii_configs configs in
      match sc_task configs with
      | None => raise (AssertFailed "The task name should be set before calling init")
      | Some task => ret (task, mii_configs)
      end
  end.

(** The three handle types the resolver can build. *)
Inductive query_handle : Type :=
| HNonPersistent (c : MIINonPersistentClient)
| HSingle (c : MIIClient)
| HParallel (c : MIITensorParallelClient).

(** [mii_query_handle] *)
Definition mii_query_handle (files : score_files) (deployment_name : string) : M query_handle :=
  models <- get_models ;;
  match models !! deployment_name with
  | Some (_inference_pipeline, task) => ret (HNonPersistent (mkNPClient task deployment_name))
  | None =>
      info <- get_deployment_info files deployment_name ;;
      let '(task_name, mii_configs) := info in
      ret (HSingle (new_MIIClient task_name "localhost" (port_number mii_configs)))
  end.

(** [handle.query(request_dict, **query_kwargs)] on whatever handle
    [mii_query_handle] returned: Python dispatches on the class. *)
Definition handle_query (net : network) (h : query_handle)
    (request_dict : request_dict) (query_kwargs : kwargs) : M pyval :=
  match h with
  | HNonPersistent c => MIINonPersistentClient_query c request_dict query_kwargs
  | HSingle c => MIIClient_query net c request_dict query_kwargs
  | HParallel tp => MIITensorParallelClient_query net tp request_dict query_kwargs
  end.

End Client.

(** [handle.terminate()] on a resolved handle. *)
Definition handle_terminate (net : network) (h : query_handle) : M unit :=
  match h with
  | HNonPersistent c => MIINonPersistentClient_terminate c
  | HSingle c => MIIClient_terminate net c
  | HParallel tp => MIITensorParallelClient_terminate net tp
  end.

(** ** Reading the outcome of calls *)

(** The value an awaited stub call yields to the coroutine, given what
    the remote side did. *)
Definition outcome_res {A} (f : proto -> A) (o : rpc_outcome) : res A :=
  match o with
  | Done p => Ok (f p)
  | Failed code => Err (TransportErr code)
  | Pending => Blocked
  end.

(** Forget the value of a successful result. *)
Definition drop_value {A} (r : res A) : res unit :=
  match r with
  | Ok _ => Ok tt
  | Err e => Err e
  | Blocked => Blocked
  end.

(** A loop over shard clients runs shard by shard: either every shard's
    call succeeds and every shard contributes its events, or the shards
    before some shard [c] succeed, [c] fails, the loop reports [c]'s
    failure, and no shard after [c] contributes anything. *)
Definition runs_in_shard_order (op : M unit) (clients : list MIIClient)
    (step_res : MIIClient -> res unit) (step_evs : MIIClient -> list event) : Prop :=
  forall st,
    (op st = (Ok tt, add_trace (concat (map step_evs clients)) st)
     /\ Forall (fun c => step_res c = Ok tt) clients)
    \/ (exists pre c post,
          clients = pre ++ c :: post
          /\ Forall (fun c' => step_res c' = Ok tt) pre
          /\ step_res c <> Ok tt
          /\ op st = (step_res c, add_trace (concat (map step_evs (pre ++ [c]))) st)).

(** An operation that leaves [mii.non_persistent_models] as it is and
    only appends events to the trace. *)
Definition frame {A} (m : M A) : Prop :=
  forall st, exists r evs, m st = (r, add_trace evs st).

(** ** Concrete inputs *)

Definition st_empty : state := mkState ∅ [].

(** A method table in which every task is registered. *)
Definition demo_methods : task_methods := {|
  pack_request_to_proto := fun r _ =>
    match r !! "query" with Some v => v | None => PNone end;
  method := "GeneratorReply";
  unpack_response_from_proto := fun p => p;
  create_conversation := fun _ _ => PObj "conversation";
  run_inference := fun _ args _ => PList args
|}.

Definition demo_table : method_table := fun _ => Some demo_methods.

(** A method table without an entry for text-to-image. *)
Definition partial_table : method_table := fun t =>
  if decide (t = TEXT2IMG) then None else Some demo_methods.

(** A network on which every call succeeds and echoes the port. *)
Definition net_ok : network := fun ep _ => Done (PInt (Z.of_N (snd ep))).

(** A network on which every call to port [bad] fails with code 14 and
    every other call succeeds. *)
Definition net_fails_at (bad : N) : network :=
  fun ep _ => if decide (snd ep = bad) then Failed 14 else Done PNone.

(** The score files of a deployment [gen1] of a text-generation model
    created with tensor-parallel degree 2 on port 50050. *)
Definition gen1_files : score_files := fun name =>
  if decide (name = "gen1") then
    Some (mkScoreConfigs (Some TEXT_GENERATION) (mkMIIConfig 2 50050 false 28080))
  else None.

(** The score files of [examples/local/txt2img-example.py]: deployment
    [sd_deploy] of a text-to-image model, tensor-parallel degree 1, on
    port 50050. *)
Definition sd_files : score_files := fun name =>
  if decide (name = "sd_deploy") then
    Some (mkScoreConfigs (Some TEXT2IMG) (mkMIIConfig 1 50050 false 28080))
  else None.

(** A registry holding in-process conversational, question-answering
    and text-generation deployments. *)
Definition demo_models : gmap string (pyval * Tasks) :=
  {[ "conv_deploy" := (PObj "pipeline", CONVERSATIONAL);
     "bert" := (PObj "qa_pipeline", QUESTION_ANSWERING);
     "gpt2" := (PObj "gen_pipeline", TEXT_GENERATION) ]}.

(** ** Monad lemmas *)

Lemma add_trace_app (a b : list event) (st : state) :
  add_trace b (add_trace a st) = add_trace (a ++ b) st.
Proof. unfold add_trace; simpl. by rewrite app_assoc. Qed.

Lemma add_trace_nil (st : state) : add_trace [] st = st.
Proof. destruct st; unfold add_trace; simpl. by rewrite app_nil_r. Qed.

Lemma stub_call_eq (net : network) (ep : endpoint) (call : rpc) (st : state) :
  stub_call net ep call st = (outcome_res id (net ep call), add_trace [EvRpc ep call] st).
Proof. unfold stub_call, bind, emit. by destruct (net ep call). Qed.

(** The generic loop lemma behind every [for client in self.clients]. *)
Lemma for_each_in_order {B} (f : MIIClient -> M B) (clients : list MIIClient)
    (step_res : MIIClient -> res unit) (step_evs : MIIClient -> list event) :
  (forall c, In c clients -> forall st, exists r,
     f c st = (r, add_trace (step_evs c) st) /\ drop_value r = step_res c) ->
  runs_in_shard_order (for_each f clients) clients step_res step_evs.
Proof.
  intros Hf. induction clients as [|c cs IH]; intros st.
  - left. simpl. rewrite add_trace_nil. split; [reflexivity | constructor].
  - simpl. destruct (Hf c (or_introl eq_refl) st) as (r & Er & Hr).
    assert (E : (f c ;;; for_each f cs) st =
                match r with
                | Ok _ => for_each f cs (add_trace (step_evs c) st)
                | Err e => (Err e, add_trace (step_evs c) st)
                | Blocked => (Blocked, add_trace (step_evs c) st)
                end).
    { unfold bind. rewrite Er. by destruct r. }
    rewrite E. clear E.
    assert (IH' : runs_in_shard_order (for_each f cs) cs step_res step_evs).
    { apply IH. intros c' Hin. apply Hf. by right. }
    destruct r as [b|e|]; simpl in Hr.
    + destruct (IH' (add_trace (step_evs c) st))
        as [[Hop Hall] | (pre & c' & post & Heq & Hpre & Hc' & Hop)].
      * left. rewrite Hop, add_trace_app. split; [reflexivity|].
        constructor; [by rewrite <- Hr | exact Hall].
      * right. exists (c :: pre), c', post. split; [by rewrite Heq|].
        split; [constructor; [by rewrite <- Hr | exact Hpre]|].
        split; [exact Hc'|].
        rewrite Hop, add_trace_app. reflexivity.
    + right. exists [], c, cs. split; [reflexivity|].
      split; [constructor|]. split; [by rewrite <- Hr|].
      rewrite <- Hr. simpl. by rewrite app_nil_r.
    + right. exists [], c, cs. split; [reflexivity|].
      split; [constructor|]. split; [by rewrite <- Hr|].
      rewrite <- Hr. simpl. by rewrite app_nil_r.
Qed.

(** The three per-shard operations, one call at a time. *)
Lemma MIIClient_terminate_eq (net : network) (c : MIIClient) (st : state) :
  MIIClient_terminate net c st =
  (drop_value (outcome_res id (net (client_ep c) RpcTerminate)),
   add_trace [EvRpc (client_ep c) RpcTerminate] st).
Proof.
  unfold MIIClient_terminate, bind at 1. rewrite stub_call_eq.
  by destruct (net (client_ep c) RpcTerminate).
Qed.

Lemma MIIClient_create_session_eq (net : network) (c : MIIClient) (sid : string) (st : state) :
  MIIClient_create_session net c sid st =
  if bool_decide (mc_task c = TEXT_GENERATION)
  then (outcome_res id (net (client_ep c) (RpcCreateSession sid)),
        add_trace [EvRpc (client_ep c) (RpcCreateSession sid)] st)
  else (Err (AssertFailed "Session creation only available for task 'text-generation'."), st).
Proof.
  unfold MIIClient_create_session, assert_, bind, ret, raise.
  case_bool_decide; [|reflexivity]. cbv beta iota. apply stub_call_eq.
Qed.

Lemma MIIClient_destroy_session_eq (net : network) (c : MIIClient) (sid : string) (st : state) :
  MIIClient_destroy_session net c sid st =
  if bool_decide (mc_task c = TEXT_GENERATION)
  then (drop_value (outcome_res id (net (client_ep c) (RpcDestroySession sid))),
        add_trace [EvRpc (client_ep c) (RpcDestroySession sid)] st)
  else (Err (AssertFailed "Session deletion only available for task 'text-generation'."), st).
Proof.
  unfold MIIClient_destroy_session, assert_, bind, ret, raise.
  case_bool_decide; [|reflexivity]. cbv beta iota. rewrite stub_call_eq.
  by destruct (net (client_ep c) (RpcDestroySession sid)).
Qed.

Section Proofs.

Variable GRPC_METHOD_TABLE : method_table.

(** [spawn_requests] issues one call per shard, in shard order, and keeps
    every shard's outcome. *)
Lemma spawn_requests_eq (net : network) (task : Tasks) (tm : task_methods)
    (clients : list MIIClient) (req : request_dict) (kw : kwargs) (st : state) :
  GRPC_METHOD_TABLE task = Some tm ->
  Forall (fun c => mc_task c = task) clients ->
  let call := RpcMethod (method tm) (pack_request_to_proto tm req kw) in
  spawn_requests GRPC_METHOD_TABLE net clients req kw st =
  (Ok (map (fun c => outcome_res (unpack_response_from_proto tm) (net (client_ep c) call)) clients),
   add_trace (map (fun c => EvRpc (client_ep c) call) clients) st).
Proof.
  intros Htab Htasks call. revert st.
  induction clients as [|c cs IH]; intros st; simpl.
  - by rewrite add_trace_nil.
  - inversion Htasks as [|? ? Hc Hcs]; subst.
    unfold bind at 1, create_task, request_async_response.
    rewrite Htab. unfold bind at 1. rewrite stub_call_eq.
    unfold bind at 1.
    fold call.
    destruct (net (client_ep c) call) eqn:Hnet; simpl;
      unfold bind; rewrite IH by exact Hcs; rewrite add_trace_app; reflexivity.
Qed.

(** C5: a single-endpoint query looks the task up in [GRPC_METHOD_TABLE]
    before anything else.  An unregistered task raises [UnknownTask]
    and leaves the trace untouched (zero RPC calls); a registered one
    issues exactly one call, to the task's stub method with the packed
    request, and returns the unpacked response. *)
Theorem MIIClient_query_checks_task_first (net : network) (c : MIIClient)
    (req : request_dict) (kw : kwargs) (st : state) :
  MIIClient_query GRPC_METHOD_TABLE net c req kw st =
  match GRPC_METHOD_TABLE (mc_task c) with
  | None => (Err UnknownTask, st)
  | Some tm =>
      let call := RpcMethod (method tm) (pack_request_to_proto tm req kw) in
      (outcome_res (unpack_response_from_proto tm) (net (client_ep c) call),
       add_trace [EvRpc (client_ep c) call] st)
  end.
Proof.
  unfold MIIClient_query, request_async_response.
  destruct (GRPC_METHOD_TABLE (mc_task c)) as [tm|]; [|reflexivity].
  unfold bind at 1. rewrite stub_call_eq.
  by destruct (net _ _).
Qed.

(** C2: a fan-out client built on ports [p0 :: ps] sends the identical
    packed request once to every shard, in shard order, and its result
    is shard 0's outcome alone: shard 0's decoded response when it
    answers, its error when it fails, and no result when it never
    answers.  Any two networks that agree on shard 0 give the same
    result, whatever the other shards do. *)
Theorem tp_query_returns_shard0 (net : network) (task : Tasks) (host : string)
    (p0 : N) (ps : list N) (tm : task_methods) (req : request_dict) (kw : kwargs) (st : state) :
  GRPC_METHOD_TABLE task = Some tm ->
  let tp := new_MIITensorParallelClient task host (p0 :: ps) in
  let call := RpcMethod (method tm) (pack_request_to_proto tm req kw) in
  MIITensorParallelClient_query GRPC_METHOD_TABLE net tp req kw st =
    (outcome_res (unpack_response_from_proto tm) (net (host, p0) call),
     add_trace (map (fun port => EvRpc (host, port) call) (p0 :: ps)) st)
  /\ (forall net' : network, net' (host, p0) call = net (host, p0) call ->
       fst (MIITensorParallelClient_query GRPC_METHOD_TABLE net' tp req kw st) =
       fst (MIITensorParallelClient_query GRPC_METHOD_TABLE net tp req kw st)).
Proof.
  intros Htab tp call.
  assert (Htasks : Forall (fun c => mc_task c = task) (tp_clients tp)).
  { unfold tp; simpl. constructor; [reflexivity|].
    induction ps as [|p ps' IHps]; constructor; [reflexivity | exact IHps]. }
  assert (E : forall n : network,
    MIITensorParallelClient_query GRPC_METHOD_TABLE n tp req kw st =
    (outcome_res (unpack_response_from_proto tm) (n (host, p0) call),
     add_trace (map (fun port => EvRpc (host, port) call) (p0 :: ps)) st)).
  { intros n. unfold MIITensorParallelClient_query, query_in_tensor_parallel.
    unfold bind at 1. unfold bind at 1.
    rewrite (spawn_requests_eq n task tm) by assumption. fold call.
    unfold tp; simpl. rewrite map_map.
    unfold bind, await_task, ret, client_ep, new_MIIClient; simpl.
    by destruct (n (host, p0) call). }
  split; [apply E|]. intros net' Hnet. rewrite !E, Hnet. reflexivity.
Qed.

End Proofs.

(** C9: on a fan-out client, [create_session], [destroy_session] and
    [terminate] call the shard clients one after the other in ascending
    shard order; a shard is called only after every earlier shard's
    call has returned successfully, and the first failing shard ends
    the loop with its failure (for the session operations the
    precondition failure of a non-generation task counts as a failing
    shard that issued no call). *)
Theorem tp_shard_calls_sequential (net : network) (tp : MIITensorParallelClient) (sid : string) :
  runs_in_shard_order (MIITensorParallelClient_create_session net tp sid) (tp_clients tp)
    (fun c => if bool_decide (mc_task c = TEXT_GENERATION)
              then drop_value (outcome_res id (net (client_ep c) (RpcCreateSession sid)))
              else Err (AssertFailed "Session creation only available for task 'text-generation'."))
    (fun c => if bool_decide (mc_task c = TEXT_GENERATION)
              then [EvRpc (client_ep c) (RpcCreateSession sid)] else [])
  /\ runs_in_shard_order (MIITensorParallelClient_destroy_session net tp sid) (tp_clients tp)
    (fun c => if bool_decide (mc_task c = TEXT_GENERATION)
              then drop_value (outcome_res id (net (client_ep c) (RpcDestroySession sid)))
              else Err (AssertFailed "Session deletion only available for task 'text-generation'."))
    (fun c => if bool_decide (mc_task c = TEXT_GENERATION)
              then [EvRpc (client_ep c) (RpcDestroySession sid)] else [])
  /\ runs_in_shard_order (MIITensorParallelClient_terminate net tp) (tp_clients tp)
    (fun c => drop_value (outcome_res id (net (client_ep c) RpcTerminate)))
    (fun c => [EvRpc (client_ep c) RpcTerminate]).
Proof.
  split; [|split]; apply for_each_in_order; intros c _ st.
  - rewrite MIIClient_create_session_eq. case_bool_decide.
    + eexists; split; reflexivity.
    + exists (Err (AssertFailed "Session creation only available for task 'text-generation'.")).
      by rewrite add_trace_nil.
  - rewrite MIIClient_destroy_session_eq. case_bool_decide.
    + eexists; split; [reflexivity|]. by destruct (net _ _).
    + exists (Err (AssertFailed "Session deletion only available for task 'text-generation'.")).
      by rewrite add_trace_nil.
  - rewrite MIIClient_terminate_eq. eexists; split; [reflexivity|]. by destruct (net _ _).
Qed.

(** C3 (amended): a fan-out [terminate] calls [Terminate] on the shards
    one at a time in ascending order and stops at the first shard whose
    call fails, propagating that failure; the shards after it are not
    called.  When every call succeeds, every shard is called once. *)
Theorem tp_terminate_stops_at_first_failure (net : network) (tp : MIITensorParallelClient) :
  runs_in_shard_order (MIITensorParallelClient_terminate net tp) (tp_clients tp)
    (fun c => drop_value (outcome_res id (net (client_ep c) RpcTerminate)))
    (fun c => [EvRpc (client_ep c) RpcTerminate]).
Proof.
  apply for_each_in_order. intros c _ st.
  rewrite MIIClient_terminate_eq. eexists; split; [reflexivity|].
  by destruct (net _ _).
Qed.

(** C3 (counterexample): three shards on ports 50050, 50051, 50052; the
    terminate call of shard 1 fails.  The failure is reported, but shard
    2 never receives a terminate call. *)
Lemma tp_terminate_skips_shard2 :
  let tp := new_MIITensorParallelClient TEXT_GENERATION "localhost" [50050%N; 50051%N; 50052%N] in
  let '(r, st') := MIITensorParallelClient_terminate (net_fails_at 50051) tp st_empty in
  r = Err (TransportErr 14)
  /\ trace st' = [EvRpc ("localhost", 50050%N) RpcTerminate; EvRpc ("localhost", 50051%N) RpcTerminate]
  /\ ~ In (EvRpc ("localhost", 50052%N) RpcTerminate) (trace st').
Proof.
  vm_compute. split; [reflexivity|]. split; [reflexivity|].
  intros [H|[H|[]]]; discriminate.
Qed.

(** C4 (amended): on a client whose task is not text-generation,
    [create_session] and [destroy_session] fail on the precondition
    without any transport call (a fan-out client with no shard at all
    returns without error, also without a call).  On a text-generation
    client, a single-endpoint client issues exactly one call; a fan-out
    client issues one call per shard in shard order, stopping after the
    first shard whose call fails, so every shard is called exactly once
    when no call fails. *)
Theorem session_ops_require_text_generation (net : network) (task : Tasks) (host : string)
    (port : N) (ports : list N) (sid : string) (st : state) :
  let c := new_MIIClient task host port in
  let tp := new_MIITensorParallelClient task host ports in
  (task <> TEXT_GENERATION ->
     MIIClient_create_session net c sid st =
       (Err (AssertFailed "Session creation only available for task 'text-generation'."), st)
     /\ MIIClient_destroy_session net c sid st =
       (Err (AssertFailed "Session deletion only available for task 'text-generation'."), st)
     /\ MIITensorParallelClient_create_session net tp sid st =
       (match ports with
        | [] => Ok tt
        | _ => Err (AssertFailed "Session creation only available for task 'text-generation'.")
        end, st)
     /\ MIITensorParallelClient_destroy_session net tp sid st =
       (match ports with
        | [] => Ok tt
        | _ => Err (AssertFailed "Session deletion only available for task 'text-generation'.")
        end, st))
  /\ (task = TEXT_GENERATION ->
     MIIClient_create_session net c sid st =
       (outcome_res id (net (host, port) (RpcCreateSession sid)),
        add_trace [EvRpc (host, port) (RpcCreateSession sid)] st)
     /\ MIIClient_destroy_session net c sid st =
       (drop_value (outcome_res id (net (host, port) (RpcDestroySession sid))),
        add_trace [EvRpc (host, port) (RpcDestroySession sid)] st)
     /\ runs_in_shard_order (MIITensorParallelClient_create_session net tp sid) (tp_clients tp)
          (fun c' => drop_value (outcome_res id (net (client_ep c') (RpcCreateSession sid))))
          (fun c' => [EvRpc (client_ep c') (RpcCreateSession sid)])
     /\ runs_in_shard_order (MIITensorParallelClient_destroy_session net tp sid) (tp_clients tp)
          (fun c' => drop_value (outcome_res id (net (client_ep c') (RpcDestroySession sid))))
          (fun c' => [EvRpc (client_ep c') (RpcDestroySession sid)])).
Proof.
  intros c tp. split; intros Htask.
  - assert (Hb : bool_decide (task = TEXT_GENERATION) = false) by (by apply bool_decide_eq_false).
    split; [|split; [|split]].
    + rewrite MIIClient_create_session_eq. simpl. by rewrite Hb.
    + rewrite MIIClient_destroy_session_eq. simpl. by rewrite Hb.
    + unfold tp, MIITensorParallelClient_create_session. destruct ports as [|p ps]; [reflexivity|].
      simpl. unfold bind at 1. rewrite MIIClient_create_session_eq. simpl. by rewrite Hb.
    + unfold tp, MIITensorParallelClient_destroy_session. destruct ports as [|p ps]; [reflexivity|].
      simpl. unfold bind at 1. rewrite MIIClient_destroy_session_eq. simpl. by rewrite Hb.
  - subst task.
    assert (Hall : forall c', In c' (tp_clients tp) -> mc_task c' = TEXT_GENERATION).
    { unfold tp; simpl. intros c' Hin. apply in_map_iff in Hin as (p & <- & _). reflexivity. }
    split; [|split; [|split]].
    + rewrite MIIClient_create_session_eq. reflexivity.
    + rewrite MIIClient_destroy_session_eq. reflexivity.
    + apply for_each_in_order. intros c' Hin st'.
      rewrite MIIClient_create_session_eq, bool_decide_eq_true_2 by (by apply Hall).
      eexists; split; reflexivity.
    + apply for_each_in_order. intros c' Hin st'.
      rewrite MIIClient_destroy_session_eq, bool_decide_eq_true_2 by (by apply Hall).
      eexists; split; [reflexivity|]. by destruct (net _ _).
Qed.

(** C4 (counterexample): a text-generation fan-out client on ports 50050
    and 50051 whose first shard fails the session-creation call: the
    second shard receives no call at all. *)
Lemma tp_create_session_second_shard_uncalled :
  let tp := new_MIITensorParallelClient TEXT_GENERATION "localhost" [50050%N; 50051%N] in
  let '(r, st') := MIITensorParallelClient_create_session (net_fails_at 50050) tp "s1" st_empty in
  r = Err (TransportErr 14)
  /\ trace st' = [EvRpc ("localhost", 50050%N) (RpcCreateSession "s1")]
  /\ ~ In (EvRpc ("localhost", 50051%N) (RpcCreateSession "s1")) (trace st').
Proof.
  vm_compute. split; [reflexivity|]. split; [reflexivity|].
  intros [H|[]]; discriminate.
Qed.

(** C1 (amended): a name that is not in [mii.non_persistent_models] is
    resolved from its score file alone: when the file can be read and
    names a task, the handle is a single-endpoint client on "localhost"
    at the configuration's one [port_number], whatever else the
    configuration holds (its [tensor_parallel] degree included); the
    registry and the trace are left as they were.  No name ever
    resolves to a fan-out client. *)
Theorem resolver_returns_single_endpoint (files : score_files) (name : string) (st : state) :
  non_persistent_models st !! name = None ->
  mii_query_handle files name st =
    (match files name with
     | None => Err (ImportErr name)
     | Some sc =>
         match sc_task sc with
         | None => Err (AssertFailed "The task name should be set before calling init")
         | Some task => Ok (HSingle (new_MIIClient task "localhost" (port_number (sc_mii_configs sc))))
         end
     end, st)
  /\ (forall (files' : score_files) (name' : string) (st' : state) (tp : MIITensorParallelClient),
       fst (mii_query_handle files' name' st') <> Ok (HParallel tp)).
Proof.
  intros Hnone. split.
  - unfold mii_query_handle, get_models, bind at 1. simpl. rewrite Hnone.
    unfold get_deployment_info, bind.
    destruct (files name) as [sc|]; [|reflexivity].
    by destruct (sc_task sc).
  - intros files' name' st' tp.
    unfold mii_query_handle, get_models, bind. simpl.
    destruct (non_persistent_models st' !! name') as [[pipe t]|]; [discriminate|].
    unfold get_deployment_info.
    destruct (files' name') as [sc|]; [|discriminate].
    destruct (sc_task sc); discriminate.
Qed.

(** C1 (counterexample): the deployment [gen1], created with
    tensor-parallel degree 2, resolves to a single-endpoint client on
    port 50050, not to a fan-out client. *)
Lemma resolve_gen1_single_endpoint :
  mii_query_handle gen1_files "gen1" st_empty =
    (Ok (HSingle (new_MIIClient TEXT_GENERATION "localhost" 50050)), st_empty)
  /\ ~ (exists tp, fst (mii_query_handle gen1_files "gen1" st_empty) = Ok (HParallel tp)).
Proof.
  split; [reflexivity|]. intros [tp Htp]. vm_compute in Htp. discriminate.
Qed.

(** Building the arguments in [MIINonPersistentClient.query] on a live
    deployment whose task is registered. *)
Lemma MIINonPersistentClient_query_live (table : method_table) (c : MIINonPersistentClient)
    (req : request_dict) (kw : kwargs) (st : state) (pipeline : pyval) (t : Tasks)
    (tm : task_methods) :
  non_persistent_models st !! np_deployment_name c = Some (pipeline, t) ->
  table (np_task c) = Some tm ->
  MIINonPersistentClient_query table c req kw st =
  (build <-
     (if bool_decide (np_task c = QUESTION_ANSWERING) then
        if bool_decide (req !! "question" = None) || bool_decide (req !! "context" = None)
        then raise QAKeysMissing
        else
          q <- dict_get req "question" ;;
          ctx <- dict_get req "context" ;;
          ret ([q; ctx], kw)
      else if bool_decide (np_task c = CONVERSATIONAL) then
        ret ([create_conversation tm req kw], ∅)
      else
        q <- dict_get req "query" ;;
        ret ([q], kw)) ;;
   let '(args, _) := build in
   emit (EvInference pipeline args kw) ;;;
   ret (run_inference tm pipeline args kw)) st.
Proof.
  intros Hm Htab.
  unfold MIINonPersistentClient_query, get_models, assert_, bind at 1 2. simpl.
  rewrite Hm, Htab. simpl. reflexivity.
Qed.

(** C6: an in-process question-answering query on a live deployment
    whose request lacks the key "question" or the key "context" raises
    the missing-keys exception and leaves the state as it was: no
    pipeline invocation is recorded. *)
Theorem np_qa_missing_key_fails_before_inference (table : method_table)
    (c : MIINonPersistentClient) (req : request_dict) (kw : kwargs) (st : state)
    (pipeline : pyval) (t : Tasks) (tm : task_methods) :
  np_task c = QUESTION_ANSWERING ->
  non_persistent_models st !! np_deployment_name c = Some (pipeline, t) ->
  table QUESTION_ANSWERING = Some tm ->
  req !! "question" = None \/ req !! "context" = None ->
  MIINonPersistentClient_query table c req kw st = (Err QAKeysMissing, st).
Proof.
  intros Htask Hm Htab Hmiss.
  rewrite (MIINonPersistentClient_query_live table c req kw st pipeline t tm Hm)
    by (by rewrite Htask).
  rewrite Htask, bool_decide_eq_true_2 by reflexivity.
  assert (Hor : bool_decide (req !! "question" = None) || bool_decide (req !! "context" = None) = true).
  { apply orb_true_iff. destruct Hmiss as [H|H]; [left|right]; by apply bool_decide_eq_true_2. }
  rewrite Hor. reflexivity.
Qed.

(** C7 (defect): the conversational branch builds [kwargs = {}] but the
    call passes [query_kwargs]: with keyword parameters
    [{"max_length": 50}] the pipeline is invoked with those parameters,
    not with the empty dict built for the branch. *)
Lemma np_conversational_passes_query_kwargs :
  MIINonPersistentClient_query demo_table (mkNPClient CONVERSATIONAL "conv_deploy")
    {[ "text" := PStr "Hello" ]} {[ "max_length" := PInt 50 ]} (mkState demo_models []) =
  (Ok (PList [PObj "conversation"]),
   mkState demo_models
     [EvInference (PObj "pipeline") [PObj "conversation"] {[ "max_length" := PInt 50 ]}])
  /\ ({[ "max_length" := PInt 50 ]} : kwargs) <> ∅.
Proof.
  split; [reflexivity|]. apply map_non_empty_singleton.
Qed.

(** C10: for a task that is neither question answering nor
    conversational, a query on a live deployment whose task is
    registered raises [KeyError('query')] without invoking the pipeline
    when the request has no "query" key, and otherwise invokes the
    pipeline once with the "query" value as the only positional
    argument and the caller's keyword parameters unchanged. *)
Theorem np_default_branch_query_key (table : method_table)
    (c : MIINonPersistentClient) (req : request_dict) (kw : kwargs) (st : state)
    (pipeline : pyval) (t : Tasks) (tm : task_methods) :
  np_task c <> QUESTION_ANSWERING ->
  np_task c <> CONVERSATIONAL ->
  non_persistent_models st !! np_deployment_name c = Some (pipeline, t) ->
  table (np_task c) = Some tm ->
  MIINonPersistentClient_query table c req kw st =
  match req !! "query" with
  | None => (Err (KeyErr "query"), st)
  | Some q => (Ok (run_inference tm pipeline [q] kw), add_trace [EvInference pipeline [q] kw] st)
  end.
Proof.
  intros Hqa Hconv Hm Htab.
  rewrite (MIINonPersistentClient_query_live table c req kw st pipeline t tm Hm Htab).
  rewrite !bool_decide_eq_false_2 by assumption.
  unfold bind, dict_get, emit, ret, raise.
  by destruct (req !! "query").
Qed.

(** C8 (amended): [terminate] is not idempotent.  On an in-process
    client whose deployment is registered, the first call prints and
    removes the name from the registry; a second call on the same handle
    raises [KeyError] for the name.  A networked client issues a fresh
    [Terminate] call every time [terminate] is called. *)
Theorem terminate_not_idempotent (c : MIINonPersistentClient) (st : state) (v : pyval * Tasks) :
  non_persistent_models st !! np_deployment_name c = Some v ->
  let msg := EvPrint ("Terminating " +:+ np_deployment_name c +:+ "...") in
  let st1 := mkState (delete (np_deployment_name c) (non_persistent_models st)) (trace st ++ [msg]) in
  MIINonPersistentClient_terminate c st = (Ok tt, st1)
  /\ MIINonPersistentClient_terminate c st1 = (Err (KeyErr (np_deployment_name c)), add_trace [msg] st1)
  /\ (forall (net : network) (mc : MIIClient) (st' : state),
        MIIClient_terminate net mc st' =
        (drop_value (outcome_res id (net (client_ep mc) RpcTerminate)),
         add_trace [EvRpc (client_ep mc) RpcTerminate] st')).
Proof.
  intros Hm msg st1. split; [|split].
  - unfold MIINonPersistentClient_terminate, emit, get_models, set_models, bind. simpl.
    rewrite Hm. reflexivity.
  - unfold MIINonPersistentClient_terminate, emit, get_models, set_models, bind. simpl.
    rewrite lookup_delete_eq. reflexivity.
  - intros net mc st'. apply MIIClient_terminate_eq.
Qed.

(** C8 (counterexample): terminating the in-process deployment "bert"
    twice through the same handle: the second call raises [KeyError]. *)
Lemma np_terminate_twice_raises :
  let c := mkNPClient QUESTION_ANSWERING "bert" in
  let '(r1, st1) := MIINonPersistentClient_terminate c (mkState demo_models []) in
  let '(r2, _) := MIINonPersistentClient_terminate c st1 in
  r1 = Ok tt /\ r2 = Err (KeyErr "bert").
Proof. vm_compute. split; reflexivity. Qed.

(** ** Witnesses: the theorems above applied at concrete inputs *)

Lemma resolver_returns_single_endpoint_witness :
  non_persistent_models st_empty !! "gen1" = None
  /\ mii_query_handle gen1_files "gen1" st_empty =
     (Ok (HSingle (new_MIIClient TEXT_GENERATION "localhost" 50050)), st_empty).
Proof.
  split; [reflexivity|].
  destruct (resolver_returns_single_endpoint gen1_files "gen1" st_empty eq_refl) as [E _].
  rewrite E. reflexivity.
Defined.

Lemma tp_query_returns_shard0_witness :
  demo_table TEXT_GENERATION = Some demo_methods
  /\ fst (MIITensorParallelClient_query demo_table net_ok
          (new_MIITensorParallelClient TEXT_GENERATION "localhost" [50050%N; 50051%N])
          {[ "query" := PStr "hello" ]} ∅ st_empty) = Ok (PInt 50050).
Proof.
  split; [reflexivity|].
  pose proof (tp_query_returns_shard0 demo_table net_ok TEXT_GENERATION "localhost"
                50050 [50051%N] demo_methods {[ "query" := PStr "hello" ]} ∅ st_empty eq_refl) as H.
  cbv zeta in H. destruct H as [E _]. rewrite E. reflexivity.
Defined.

Lemma session_ops_require_text_generation_witness :
  TEXT2IMG <> TEXT_GENERATION
  /\ MIIClient_create_session net_ok (new_MIIClient TEXT2IMG "localhost" 50050) "s1" st_empty =
     (Err (AssertFailed "Session creation only available for task 'text-generation'."), st_empty).
Proof.
  split; [discriminate|].
  pose proof (session_ops_require_text_generation net_ok TEXT2IMG "localhost" 50050 [50050%N; 50051%N]
                "s1" st_empty) as H.
  cbv zeta in H. destruct H as [Hnot _].
  destruct (Hnot ltac:(discriminate)) as [E _]. exact E.
Defined.

Lemma np_qa_missing_key_fails_before_inference_witness :
  non_persistent_models (mkState demo_models []) !! "bert" = Some (PObj "qa_pipeline", QUESTION_ANSWERING)
  /\ MIINonPersistentClient_query demo_table (mkNPClient QUESTION_ANSWERING "bert")
       {[ "question" := PStr "Who wrote it?" ]} ∅ (mkState demo_models []) =
     (Err QAKeysMissing, mkState demo_models []).
Proof.
  split; [reflexivity|].
  apply (np_qa_missing_key_fails_before_inference demo_table (mkNPClient QUESTION_ANSWERING "bert")
           {[ "question" := PStr "Who wrote it?" ]} ∅ (mkState demo_models [])
           (PObj "qa_pipeline") QUESTION_ANSWERING demo_methods);
    [reflexivity | reflexivity | reflexivity | right; reflexivity].
Defined.

Lemma np_default_branch_query_key_witness :
  non_persistent_models (mkState demo_models []) !! "gpt2" = Some (PObj "gen_pipeline", TEXT_GENERATION)
  /\ MIINonPersistentClient_query demo_table (mkNPClient TEXT_GENERATION "gpt2")
       {[ "query" := PList [PStr "hello"] ]} ∅ (mkState demo_models []) =
     (Ok (PList [PList [PStr "hello"]]),
      add_trace [EvInference (PObj "gen_pipeline") [PList [PStr "hello"]] ∅] (mkState demo_models [])).
Proof.
  split; [reflexivity|].
  rewrite (np_default_branch_query_key demo_table (mkNPClient TEXT_GENERATION "gpt2")
             {[ "query" := PList [PStr "hello"] ]} ∅ (mkState demo_models [])
             (PObj "gen_pipeline") TEXT_GENERATION demo_methods);
    [reflexivity | discriminate | discriminate | reflexivity | reflexivity].
Defined.

Lemma terminate_not_idempotent_witness :
  non_persistent_models (mkState demo_models []) !! "bert" = Some (PObj "qa_pipeline", QUESTION_ANSWERING)
  /\ fst (MIINonPersistentClient_terminate (mkNPClient QUESTION_ANSWERING "bert")
          (mkState (delete "bert" demo_models) [EvPrint ("Terminating " +:+ "bert" +:+ "...")]))
     = Err (KeyErr "bert").
Proof.
  split; [reflexivity|].
  pose proof (terminate_not_idempotent (mkNPClient QUESTION_ANSWERING "bert") (mkState demo_models [])
                (PObj "qa_pipeline", QUESTION_ANSWERING) eq_refl) as H.
  cbv zeta in H. destruct H as [_ [E _]]. simpl in E. rewrite E. reflexivity.
Defined.

(** ** Frame lemmas: what leaves the registry alone *)

Lemma frame_ret {A} (a : A) : frame (ret a).
Proof. intros st. exists (Ok a), []. by rewrite add_trace_nil. Qed.

Lemma frame_raise {A} (e : error) : frame (@raise A e).
Proof. intros st. exists (Err e), []. by rewrite add_trace_nil. Qed.

Lemma frame_block {A} : frame (@block A).
Proof. intros st. exists Blocked, []. by rewrite add_trace_nil. Qed.

Lemma frame_emit (ev : event) : frame (emit ev).
Proof. intros st. by exists (Ok tt), [ev]. Qed.

Lemma frame_get_models : frame get_models.
Proof. intros st. exists (Ok (non_persistent_models st)), []. by rewrite add_trace_nil. Qed.

Lemma frame_bind {A B} (m : M A) (k : A -> M B) :
  frame m -> (forall a, frame (k a)) -> frame (bind m k).
Proof.
  intros Hm Hk st. destruct (Hm st) as (r & evs & E). unfold bind. rewrite E.
  destruct r as [a|e|].
  - destruct (Hk a (add_trace evs st)) as (r' & evs' & E'). rewrite E', add_trace_app. eauto.
  - eauto.
  - eauto.
Qed.

Lemma frame_stub_call (net : network) (ep : endpoint) (call : rpc) : frame (stub_call net ep call).
Proof. intros st. rewrite stub_call_eq. eauto. Qed.

Lemma frame_create_task {A} (m : M A) : frame m -> frame (create_task m).
Proof. intros Hm st. destruct (Hm st) as (r & evs & E). unfold create_task. rewrite E. eauto. Qed.

Lemma frame_await_task {A} (r : res A) : frame (await_task r).
Proof. intros st. exists r, []. by rewrite add_trace_nil. Qed.

Lemma frame_assert (b : bool) (msg : string) : frame (assert_ b msg).
Proof. destruct b; [apply frame_ret | apply frame_raise]. Qed.

Lemma frame_dict_get (d : gmap string pyval) (k : string) : frame (dict_get d k).
Proof. unfold dict_get. destruct (d !! k); [apply frame_ret | apply frame_raise]. Qed.

Lemma frame_for_each {A B} (f : A -> M B) (xs : list A) :
  (forall x, frame (f x)) -> frame (for_each f xs).
Proof.
  intros Hf. induction xs as [|x xs IH]; simpl; [apply frame_ret|].
  apply frame_bind; [apply Hf | intros _; exact IH].
Qed.

Create HintDb frame_db.
#[local] Hint Resolve frame_ret frame_raise frame_block frame_emit frame_get_models
  frame_stub_call frame_await_task frame_assert frame_dict_get : frame_db.

Ltac solve_frame :=
  repeat first
    [ progress auto with frame_db
    | apply frame_bind; [|intros ?]
    | apply frame_create_task
    | apply frame_for_each; intros ?
    | case_match ].

Lemma frame_spawn_requests (table : method_table) (net : network) (clients : list MIIClient)
    (req : request_dict) (kw : kwargs) :
  frame (spawn_requests table net clients req kw).
Proof.
  induction clients as [|c cs IH]; simpl; [apply frame_ret|].
  apply frame_bind; [apply frame_create_task; unfold request_async_response; solve_frame|].
  intros t. apply frame_bind; [exact IH | intros ts; apply frame_ret].
Qed.

(** X10: every client operation other than the in-process [terminate]
    (the three operations of a single-endpoint client and of a fan-out
    client, the in-process query, and the resolver) leaves
    [mii.non_persistent_models] unchanged and only appends events to
    the trace. *)
Theorem client_ops_keep_registry (table : method_table) (net : network) (files : score_files)
    (c : MIIClient) (tp : MIITensorParallelClient) (npc : MIINonPersistentClient)
    (req : request_dict) (kw : kwargs) (sid name : string) :
  frame (MIIClient_query table net c req kw)
  /\ frame (MIIClient_create_session net c sid)
  /\ frame (MIIClient_destroy_session net c sid)
  /\ frame (MIIClient_terminate net c)
  /\ frame (MIITensorParallelClient_query table net tp req kw)
  /\ frame (MIITensorParallelClient_create_session net tp sid)
  /\ frame (MIITensorParallelClient_destroy_session net tp sid)
  /\ frame (MIITensorParallelClient_terminate net tp)
  /\ frame (MIINonPersistentClient_query table npc req kw)
  /\ frame (mii_query_handle files name).
Proof.
  repeat split.
  - unfold MIIClient_query, request_async_response. solve_frame.
  - unfold MIIClient_create_session. solve_frame.
  - unfold MIIClient_destroy_session. solve_frame.
  - unfold MIIClient_terminate. solve_frame.
  - unfold MIITensorParallelClient_query, query_in_tensor_parallel.
    apply frame_bind; [|intros ?; solve_frame].
    apply frame_bind; [apply frame_spawn_requests | intros ?; solve_frame].
  - unfold MIITensorParallelClient_create_session. solve_frame.
  - unfold MIITensorParallelClient_destroy_session. solve_frame.
  - unfold MIITensorParallelClient_terminate, MIIClient_terminate. solve_frame.
  - unfold MIINonPersistentClient_query. solve_frame.
  - unfold mii_query_handle, get_deployment_info. solve_frame.
Qed.

(** ** The remaining paths of the clients and the resolver *)

Lemma MIINonPersistentClient_terminate_eq (c : MIINonPersistentClient) (st : state) (v : pyval * Tasks) :
  non_persistent_models st !! np_deployment_name c = Some v ->
  MIINonPersistentClient_terminate c st =
  (Ok tt, mkState (delete (np_deployment_name c) (non_persistent_models st))
            (trace st ++ [EvPrint ("Terminating " +:+ np_deployment_name c +:+ "...")])).
Proof.
  intros Hm. unfold MIINonPersistentClient_terminate, emit, get_models, set_models, bind.
  simpl. by rewrite Hm.
Qed.

Lemma MIINonPersistentClient_query_not_found (table : method_table) (c : MIINonPersistentClient)
    (req : request_dict) (kw : kwargs) (st : state) :
  non_persistent_models st !! np_deployment_name c = None ->
  MIINonPersistentClient_query table c req kw st =
  (Err (AssertFailed ("deployment: " +:+ np_deployment_name c +:+ " not found")), st).
Proof.
  intros Hm. unfold MIINonPersistentClient_query, get_models, assert_, bind, raise. simpl.
  rewrite Hm. reflexivity.
Qed.

Lemma mii_query_handle_unregistered (files : score_files) (name : string) (st : state) :
  non_persistent_models st !! name = None ->
  mii_query_handle files name st =
    (match files name with
     | None => Err (ImportErr name)
     | Some sc =>
         match sc_task sc with
         | None => Err (AssertFailed "The task name should be set before calling init")
         | Some task => Ok (HSingle (new_MIIClient task "localhost" (port_number (sc_mii_configs sc))))
         end
     end, st).
Proof.
  intros Hnone. unfold mii_query_handle, get_models, bind at 1. simpl. rewrite Hnone.
  unfold get_deployment_info, bind.
  destruct (files name) as [sc|]; [|reflexivity].
  by destruct (sc_task sc).
Qed.

(** X1: a fan-out client built on an empty port list fails every query
    with [IndexError] on [responses[0]] and issues no call. *)
Theorem tp_query_no_shards (table : method_table) (net : network) (task : Tasks) (host : string)
    (req : request_dict) (kw : kwargs) (st : state) :
  MIITensorParallelClient_query table net (new_MIITensorParallelClient task host []) req kw st =
  (Err IndexErr, st).
Proof. reflexivity. Qed.

(** X2: when the fan-out client's task is not in [GRPC_METHOD_TABLE],
    every shard raises [ValueError] before its call, so a query issues
    no call at all and fails with shard 0's [UnknownTask] (or with
    [IndexError] when there is no shard). *)
Theorem tp_query_unknown_task_no_calls (table : method_table) (net : network) (task : Tasks)
    (host : string) (ports : list N) (req : request_dict) (kw : kwargs) (st : state) :
  table task = None ->
  MIITensorParallelClient_query table net (new_MIITensorParallelClient task host ports) req kw st =
  (match ports with [] => Err IndexErr | _ => Err UnknownTask end, st).
Proof.
  intros Htab.
  assert (Hspawn : forall ps st',
    spawn_requests table net (map (fun port => new_MIIClient task host port) ps) req kw st' =
    (Ok (map (fun _ => Err UnknownTask) ps), st')).
  { induction ps as [|p ps IH]; intros st'; [reflexivity|].
    simpl. unfold bind at 1, create_task, request_async_response. simpl. rewrite Htab.
    unfold raise, bind. rewrite IH. reflexivity. }
  unfold MIITensorParallelClient_query, query_in_tensor_parallel, bind at 1 2. simpl.
  rewrite Hspawn. destruct ports; reflexivity.
Qed.

(** X3: once an in-process deployment has been terminated, a query
    through any in-process handle for that name fails with the
    "deployment ... not found" assertion and invokes no pipeline. *)
Theorem np_query_after_terminate (table : method_table) (c c' : MIINonPersistentClient)
    (req : request_dict) (kw : kwargs) (st : state) (v : pyval * Tasks) :
  non_persistent_models st !! np_deployment_name c = Some v ->
  np_deployment_name c' = np_deployment_name c ->
  let st1 := snd (MIINonPersistentClient_terminate c st) in
  MIINonPersistentClient_query table c' req kw st1 =
  (Err (AssertFailed ("deployment: " +:+ np_deployment_name c +:+ " not found")), st1).
Proof.
  intros Hm Hname st1.
  rewrite <- Hname. apply MIINonPersistentClient_query_not_found.
  unfold st1. rewrite (MIINonPersistentClient_terminate_eq c st v Hm). simpl.
  rewrite Hname. apply lookup_delete_eq.
Qed.

(** X4: an in-process query on a live deployment whose task has no entry
    in [GRPC_METHOD_TABLE] raises [KeyError] for the task and invokes no
    pipeline. *)
Theorem np_query_unregistered_task (table : method_table) (c : MIINonPersistentClient)
    (req : request_dict) (kw : kwargs) (st : state) (v : pyval * Tasks) :
  non_persistent_models st !! np_deployment_name c = Some v ->
  table (np_task c) = None ->
  MIINonPersistentClient_query table c req kw st = (Err (KeyErrTask (np_task c)), st).
Proof.
  intros Hm Htab. unfold MIINonPersistentClient_query, get_models, assert_, bind, ret. simpl.
  rewrite Hm, Htab. reflexivity.
Qed.

(** X5: an in-process question-answering query on a live deployment
    whose request has both "question" and "context" invokes the pipeline
    once with [(question, context)] and the caller's keyword parameters,
    and returns [run_inference]'s result. *)
Theorem np_qa_query_success (table : method_table) (c : MIINonPersistentClient)
    (req : request_dict) (kw : kwargs) (st : state) (pipeline : pyval) (t : Tasks)
    (tm : task_methods) (q ctx : pyval) :
  np_task c = QUESTION_ANSWERING ->
  non_persistent_models st !! np_deployment_name c = Some (pipeline, t) ->
  table QUESTION_ANSWERING = Some tm ->
  req !! "question" = Some q ->
  req !! "context" = Some ctx ->
  MIINonPersistentClient_query table c req kw st =
  (Ok (run_inference tm pipeline [q; ctx] kw), add_trace [EvInference pipeline [q; ctx] kw] st).
Proof.
  intros Htask Hm Htab Hq Hc.
  rewrite (MIINonPersistentClient_query_live table c req kw st pipeline t tm Hm)
    by (by rewrite Htask).
  rewrite Htask, bool_decide_eq_true_2 by reflexivity.
  rewrite Hq, Hc. simpl.
  unfold bind, dict_get, emit, ret. rewrite Hq, Hc. reflexivity.
Qed.

(** X6: an in-process conversational query on a live deployment builds
    one conversation object from the request and the keyword parameters
    and invokes the pipeline once with that object and the caller's
    keyword parameters. *)
Theorem np_conversational_query (table : method_table) (c : MIINonPersistentClient)
    (req : request_dict) (kw : kwargs) (st : state) (pipeline : pyval) (t : Tasks)
    (tm : task_methods) :
  np_task c = CONVERSATIONAL ->
  non_persistent_models st !! np_deployment_name c = Some (pipeline, t) ->
  table CONVERSATIONAL = Some tm ->
  let conv := create_conversation tm req kw in
  MIINonPersistentClient_query table c req kw st =
  (Ok (run_inference tm pipeline [conv] kw), add_trace [EvInference pipeline [conv] kw] st).
Proof.
  intros Htask Hm Htab conv.
  rewrite (MIINonPersistentClient_query_live table c req kw st pipeline t tm Hm)
    by (by rewrite Htask).
  rewrite Htask, bool_decide_eq_false_2 by discriminate.
  rewrite bool_decide_eq_true_2 by reflexivity. reflexivity.
Qed.

(** X7: an in-process query never changes the registry, and it invokes
    the pipeline at most once: exactly when it succeeds, in which case it
    used the pipeline currently registered under the deployment name,
    the task's [run_inference] and the caller's keyword parameters, and
    returned [run_inference]'s result.  A failing query leaves the state
    as it was. *)
Theorem np_query_inference_iff_success (table : method_table) (c : MIINonPersistentClient)
    (req : request_dict) (kw : kwargs) (st : state) :
  let '(r, st') := MIINonPersistentClient_query table c req kw st in
  match r with
  | Ok v =>
      exists pipeline t tm args,
        non_persistent_models st !! np_deployment_name c = Some (pipeline, t)
        /\ table (np_task c) = Some tm
        /\ v = run_inference tm pipeline args kw
        /\ st' = add_trace [EvInference pipeline args kw] st
  | _ => st' = st
  end.
Proof.
  unfold MIINonPersistentClient_query, get_models, assert_, bind, ret, raise, emit, dict_get.
  simpl.
  destruct (non_persistent_models st !! np_deployment_name c) as [[pipeline t]|] eqn:Hm;
    simpl; [|reflexivity].
  destruct (table (np_task c)) as [tm|] eqn:Htab; [|reflexivity].
  repeat (case_match; unfold ret, raise in *; simplify_eq); try reflexivity.
  all: by repeat eexists.
Qed.

(** X8: a name present in [mii.non_persistent_models] resolves to an
    in-process client carrying the task stored in the registry, without
    reading any score file and without any call. *)
Theorem resolver_prefers_in_process (files : score_files) (name : string) (st : state)
    (pipeline : pyval) (t : Tasks) :
  non_persistent_models st !! name = Some (pipeline, t) ->
  mii_query_handle files name st = (Ok (HNonPersistent (mkNPClient t name)), st).
Proof.
  intros Hm. unfold mii_query_handle, get_models, bind. simpl. by rewrite Hm.
Qed.

(** X9: after an in-process deployment is terminated, resolving its name
    again no longer yields an in-process client: the resolver falls back
    to the deployment's score file. *)
Theorem resolve_after_terminate_reads_score_file (files : score_files)
    (c : MIINonPersistentClient) (st : state) (v : pyval * Tasks) :
  non_persistent_models st !! np_deployment_name c = Some v ->
  let name := np_deployment_name c in
  let st1 := snd (MIINonPersistentClient_terminate c st) in
  mii_query_handle files name st1 =
    (match files name with
     | None => Err (ImportErr name)
     | Some sc =>
         match sc_task sc with
         | None => Err (AssertFailed "The task name should be set before calling init")
         | Some task => Ok (HSingle (new_MIIClient task "localhost" (port_number (sc_mii_configs sc))))
         end
     end, st1).
Proof.
  intros Hm name st1. apply mii_query_handle_unregistered.
  unfold st1. rewrite (MIINonPersistentClient_terminate_eq c st v Hm). simpl.
  apply lookup_delete_eq.
Qed.

(** X11: resolving a networked deployment and querying the handle, as
    [examples/local/txt2img-example.py] does, issues exactly one call, to
    "localhost" at the configured [port_number] with the task's method
    and packed request, and returns the unpacked response. *)
Theorem resolve_then_query_single_call (table : method_table) (net : network)
    (files : score_files) (name : string) (st : state) (sc : score_configs) (t : Tasks)
    (tm : task_methods) (req : request_dict) (kw : kwargs) :
  non_persistent_models st !! name = None ->
  files name = Some sc ->
  sc_task sc = Some t ->
  table t = Some tm ->
  let ep := ("localhost", port_number (sc_mii_configs sc)) in
  let call := RpcMethod (method tm) (pack_request_to_proto tm req kw) in
  (h <- mii_query_handle files name ;; handle_query table net h req kw) st =
  (outcome_res (unpack_response_from_proto tm) (net ep call), add_trace [EvRpc ep call] st).
Proof.
  intros Hm Hf Ht Htab ep call.
  unfold bind at 1. rewrite (mii_query_handle_unregistered files name st Hm), Hf, Ht.
  simpl. unfold MIIClient_query, request_async_response. simpl. rewrite Htab.
  unfold bind. rewrite stub_call_eq. unfold client_ep, new_MIIClient. simpl. fold ep call.
  by destruct (net ep call).
Qed.

(** X12: terminating one in-process deployment does not change how any
    other deployment name resolves. *)
Theorem np_terminate_keeps_other_deployments (files : score_files) (c : MIINonPersistentClient)
    (st : state) (v : pyval * Tasks) (name' : string) :
  non_persistent_models st !! np_deployment_name c = Some v ->
  name' <> np_deployment_name c ->
  fst (mii_query_handle files name' (snd (MIINonPersistentClient_terminate c st))) =
  fst (mii_query_handle files name' st).
Proof.
  intros Hm Hne. rewrite (MIINonPersistentClient_terminate_eq c st v Hm).
  unfold mii_query_handle, get_models, bind at 1 3. simpl.
  rewrite lookup_delete_ne by congruence.
  destruct (non_persistent_models st !! name') as [[p t]|]; [reflexivity|].
  unfold get_deployment_info, bind.
  destruct (files name') as [sc|]; [|reflexivity].
  by destruct (sc_task sc).
Qed.

(** ** Witnesses of the properties above *)

Lemma tp_query_unknown_task_no_calls_witness :
  partial_table TEXT2IMG = None
  /\ MIITensorParallelClient_query partial_table net_ok
       (new_MIITensorParallelClient TEXT2IMG "localhost" [50050%N; 50051%N])
       {[ "query" := PStr "a panda" ]} ∅ st_empty = (Err UnknownTask, st_empty).
Proof.
  split; [reflexivity|].
  exact (tp_query_unknown_task_no_calls partial_table net_ok TEXT2IMG "localhost"
           [50050%N; 50051%N] {[ "query" := PStr "a panda" ]} ∅ st_empty eq_refl).
Defined.

Lemma np_query_after_terminate_witness :
  non_persistent_models (mkState demo_models []) !! "bert" = Some (PObj "qa_pipeline", QUESTION_ANSWERING)
  /\ fst (MIINonPersistentClient_query demo_table (mkNPClient QUESTION_ANSWERING "bert")
          {[ "question" := PStr "Who?"; "context" := PStr "Alice." ]} ∅
          (snd (MIINonPersistentClient_terminate (mkNPClient QUESTION_ANSWERING "bert")
                  (mkState demo_models []))))
     = Err (AssertFailed ("deployment: " +:+ "bert" +:+ " not found")).
Proof.
  split; [reflexivity|].
  pose proof (np_query_after_terminate demo_table (mkNPClient QUESTION_ANSWERING "bert")
                (mkNPClient QUESTION_ANSWERING "bert")
                {[ "question" := PStr "Who?"; "context" := PStr "Alice." ]} ∅
                (mkState demo_models []) (PObj "qa_pipeline", QUESTION_ANSWERING)
                eq_refl eq_refl) as H.
  cbv zeta in H. rewrite H. reflexivity.
Defined.

Lemma np_query_unregistered_task_witness :
  partial_table TEXT2IMG = None
  /\ MIINonPersistentClient_query partial_table (mkNPClient TEXT2IMG "conv_deploy")
       {[ "query" := PStr "a panda" ]} ∅ (mkState demo_models []) =
     (Err (KeyErrTask TEXT2IMG), mkState demo_models []).
Proof.
  split; [reflexivity|].
  exact (np_query_unregistered_task partial_table (mkNPClient TEXT2IMG "conv_deploy")
           {[ "query" := PStr "a panda" ]} ∅ (mkState demo_models [])
           (PObj "pipeline", CONVERSATIONAL) eq_refl eq_refl).
Defined.

Lemma np_qa_query_success_witness :
  MIINonPersistentClient_query demo_table (mkNPClient QUESTION_ANSWERING "bert")
    {[ "question" := PStr "Who?"; "context" := PStr "Alice." ]} ∅ (mkState demo_models []) =
  (Ok (PList [PStr "Who?"; PStr "Alice."]),
   add_trace [EvInference (PObj "qa_pipeline") [PStr "Who?"; PStr "Alice."] ∅] (mkState demo_models [])).
Proof.
  apply (np_qa_query_success demo_table (mkNPClient QUESTION_ANSWERING "bert")
           {[ "question" := PStr "Who?"; "context" := PStr "Alice." ]} ∅ (mkState demo_models [])
           (PObj "qa_pipeline") QUESTION_ANSWERING demo_methods);
    reflexivity.
Defined.

Lemma np_conversational_query_witness :
  MIINonPersistentClient_query demo_table (mkNPClient CONVERSATIONAL "conv_deploy")
    {[ "text" := PStr "Hello" ]} ∅ (mkState demo_models []) =
  (Ok (PList [PObj "conversation"]),
   add_trace [EvInference (PObj "pipeline") [PObj "conversation"] ∅] (mkState demo_models [])).
Proof.
  apply (np_conversational_query demo_table (mkNPClient CONVERSATIONAL "conv_deploy")
           {[ "text" := PStr "Hello" ]} ∅ (mkState demo_models [])
           (PObj "pipeline") CONVERSATIONAL demo_methods);
    reflexivity.
Defined.

Lemma resolver_prefers_in_process_witness :
  non_persistent_models (mkState demo_models []) !! "gpt2" = Some (PObj "gen_pipeline", TEXT_GENERATION)
  /\ mii_query_handle sd_files "gpt2" (mkState demo_models []) =
     (Ok (HNonPersistent (mkNPClient TEXT_GENERATION "gpt2")), mkState demo_models []).
Proof.
  split; [reflexivity|].
  exact (resolver_prefers_in_process sd_files "gpt2" (mkState demo_models [])
           (PObj "gen_pipeline") TEXT_GENERATION eq_refl).
Defined.

Lemma resolve_after_terminate_reads_score_file_witness :
  fst (mii_query_handle gen1_files "gen1"
         (snd (MIINonPersistentClient_terminate (mkNPClient TEXT_GENERATION "gen1")
                 (mkState {[ "gen1" := (PObj "gen_pipeline", TEXT_GENERATION) ]} []))))
  = Ok (HSingle (new_MIIClient TEXT_GENERATION "localhost" 50050)).
Proof.
  pose proof (resolve_after_terminate_reads_score_file gen1_files (mkNPClient TEXT_GENERATION "gen1")
                (mkState {[ "gen1" := (PObj "gen_pipeline", TEXT_GENERATION) ]} [])
                (PObj "gen_pipeline", TEXT_GENERATION) eq_refl) as H.
  cbv zeta in H. cbn [np_deployment_name] in H. rewrite H. reflexivity.
Defined.

Lemma resolve_then_query_single_call_witness :
  (h <- mii_query_handle sd_files "sd_deploy" ;;
   handle_query demo_table net_ok h {[ "query" := PList [PStr "a panda in space with a rainbow"] ]} ∅)
    st_empty =
  (Ok (PInt 50050),
   add_trace [EvRpc ("localhost", 50050%N)
                (RpcMethod "GeneratorReply" (PList [PStr "a panda in space with a rainbow"]))] st_empty).
Proof.
  pose proof (resolve_then_query_single_call demo_table net_ok sd_files "sd_deploy" st_empty
                (mkScoreConfigs (Some TEXT2IMG) (mkMIIConfig 1 50050 false 28080)) TEXT2IMG
                demo_methods {[ "query" := PList [PStr "a panda in space with a rainbow"] ]} ∅
                eq_refl eq_refl eq_refl eq_refl) as H.
  cbv zeta in H. rewrite H. reflexivity.
Defined.

Lemma np_terminate_keeps_other_deployments_witness :
  fst (mii_query_handle sd_files "gpt2"
         (snd (MIINonPersistentClient_terminate (mkNPClient QUESTION_ANSWERING "bert")
                 (mkState demo_models []))))
  = Ok (HNonPersistent (mkNPClient TEXT_GENERATION "gpt2")).
Proof.
  rewrite (np_terminate_keeps_other_deployments sd_files (mkNPClient QUESTION_ANSWERING "bert")
             (mkState demo_models []) (PObj "qa_pipeline", QUESTION_ANSWERING) "gpt2");
    [reflexivity | reflexivity | discriminate].
Defined.
